(** * The specification pattern of [open_closed_principle.py]

    A shallow embedding of the product-filtering example
    (Solid Principles/open_closed_principle.py): the [Color] and [Size]
    enumerations, [Product] objects living in a heap, the [Specification]
    class hierarchy with its [&] operator, and the generator returned by
    [ProductFilter.filter].

    Python objects have identity and attributes that can be missing, and a
    predicate written by a user of the library may do anything to the
    objects it can reach.  The embedding therefore keeps an explicit heap
    of objects addressed by references, evaluates [is_satisfied] in a
    state-and-exception monad over that heap, and runs the generator one
    loop iteration at a time. *)

From stdpp Require Import gmap strings list.

Open Scope string_scope.

(** ** Enumerations (STEP 1) *)

Inductive Color := RED | GREEN | BLUE.
Inductive Size := SMALL | MEDIUM | LARGE.

#[global] Instance Color_eq_dec : EqDecision Color.
Proof. solve_decision. Defined.
#[global] Instance Size_eq_dec : EqDecision Size.
Proof. solve_decision. Defined.

(** ** Python values, objects and the heap *)

(** The values an attribute may hold.  Members of the two [Enum] classes
    compare by identity, strings and integers by content, and values of
    different kinds are never equal: [==] is structural equality here. *)
Inductive value :=
  | VColor (c : Color)
  | VSize (s : Size)
  | VStr (s : string)
  | VInt (n : Z)
  | VNone.

#[global] Instance value_eq_dec : EqDecision value.
Proof. solve_decision. Defined.

(** [a == b] *)
Definition py_eq (a b : value) : bool := bool_decide (a = b).

(** A reference is the identity of an object. *)
Abbreviation ref := positive (only parsing).

(** Heap objects: an instance with its [__dict__], or a list of references. *)
Inductive object :=
  | PyInstance (attrs : gmap string value)
  | PyList (elems : list positive).

Abbreviation heap := (gmap positive object) (only parsing).

Inductive exn :=
  | AttributeError
  | NotImplementedError
  | TypeError
  | StopIteration
  | RuntimeError
  | UserError (msg : string).

(** An exception that leaves the body of a generator (a generator
    function or a generator expression): [StopIteration] is replaced by
    [RuntimeError], every other exception passes unchanged. *)
Definition leaving_generator (e : exn) : exn :=
  match e with
  | StopIteration => RuntimeError
  | _ => e
  end.

(** What a call does: it returns or it raises. *)
Inductive outcome (A : Type) :=
  | Return (a : A)
  | Raise (e : exn).
Arguments Return {A} a.
Arguments Raise {A} e.

(** A computation reads and writes the heap and returns or raises. *)
Abbreviation comp A := (gmap positive object → outcome A * gmap positive object)
  (only parsing).

(** Allocation of a new object at a reference not yet in use. *)
Definition alloc (o : object) (h : heap) : ref * heap :=
  let r := fresh (dom h) in (r, <[r := o]> h).

(** [item.name] for an attribute set on the instance, which is what
    [color], [size] and [name], the only attributes the module reads or
    writes, are: [AttributeError] when the instance has no such entry (a
    list has none of these).  Names that Python finds on the class
    ([__class__], [__dict__], [__doc__], the methods) are outside this
    lookup and are not used with it. *)
Definition getattr (h : heap) (item : ref) (name : string) : outcome value :=
  match h !! item with
  | Some (PyInstance attrs) =>
      match attrs !! name with
      | Some v => Return v
      | None => Raise AttributeError
      end
  | _ => Raise AttributeError
  end.

(** ** Product (STEP 2) *)

(** [Product.__init__]: a new instance with the three attributes. *)
Definition Product_init (name color size : value) (h : heap) : ref * heap :=
  alloc (PyInstance {[ "name" := name; "color" := color; "size" := size ]}) h.

(** ** Specifications (STEP 3 and STEP 5) *)

(** The class hierarchy.  [Specification_base] is an instance of the base
    class itself; [UserSpecification] stands for any further subclass that
    overrides [is_satisfied] only: its method returns a boolean or
    raises, and may read and write the heap.  Specifications themselves are never mutated by the
    program, so they are values here, not heap objects. *)
#[warnings="-register-all"]
Inductive Specification :=
  | Specification_base
  | ColorSpecification (color : value)
  | SizeSpecification (size : value)
  | AndSpecification (specifications : list Specification)
  | UserSpecification (method : positive → comp bool).

(** [all(... for ... in ...)], i.e. [all] over a generator expression
    whose elements are the checks: left to right, stopping at the first
    one that is false.  A check runs inside the generator expression, so
    its exception reaches the caller of [all] as an exception that left a
    generator. *)
Fixpoint py_all (checks : list (comp bool)) (h : heap) : outcome bool * heap :=
  match checks with
  | [] => (Return true, h)
  | check :: rest =>
      match check h with
      | (Return true, h') => py_all rest h'
      | (Return false, h') => (Return false, h')
      | (Raise e, h') => (Raise (leaving_generator e), h')
      end
  end.

(** [a and b], for two boolean computations. *)
Definition py_and (a b : comp bool) (h : heap) : outcome bool * heap :=
  match a h with
  | (Return true, h') => b h'
  | (Return false, h') => (Return false, h')
  | (Raise e, h') => (Raise e, h')
  end.

(** [spec.is_satisfied(item)] *)
Fixpoint is_satisfied (self : Specification) (item : ref) (h : heap)
  : outcome bool * heap :=
  match self with
  | Specification_base => (Raise NotImplementedError, h)
  | ColorSpecification color =>
      match getattr h item "color" with
      | Return v => (Return (py_eq v color), h)
      | Raise e => (Raise e, h)
      end
  | SizeSpecification size =>
      match getattr h item "size" with
      | Return v => (Return (py_eq v size), h)
      | Raise e => (Raise e, h)
      end
  | AndSpecification specifications =>
      py_all ((λ spec, is_satisfied spec item) <$> specifications) h
  | UserSpecification method => method item h
  end.

(** [AndSpecification.__init__], called with any number of specifications:
    stores the tuple as it is; nothing is checked. *)
Definition AndSpecification_init (specifications : list Specification)
  : outcome Specification :=
  Return (AndSpecification specifications).

(** [self & other], i.e. [Specification.__and__]. *)
Definition and_ (self other : Specification) : Specification :=
  AndSpecification [self; other].

(** ** Filters (STEP 4 and STEP 6) *)

(** [Filter.filter] of the base class. *)
Definition Filter_filter (items : ref) (spec : Specification)
  : outcome unit :=
  Raise NotImplementedError.

(** The generator object of [ProductFilter.filter].  Calling the method
    only creates it ([GenCreated]); inside the loop it holds the list it
    iterates over and the index of the next element ([GenIterating]), as
    the list iterator does; after [return] or an exception it is closed. *)
Inductive generator :=
  | GenCreated (items : positive) (spec : Specification)
  | GenIterating (items : positive) (index : nat) (spec : Specification)
  | GenClosed.

Definition ProductFilter_filter (items : ref) (spec : Specification)
  : generator :=
  GenCreated items spec.

(** What one iteration of the [for] loop does. *)
Inductive signal :=
  | Yielded (item : positive)
  | Rejected
  | Exhausted
  | Raised (e : exn).

(** One iteration at position [index]: fetch the element, test it, yield
    it or go on.  The list is read from the current heap, as the list
    iterator does.  The test runs in the body of the generator, so its
    exception reaches the caller as one that left a generator.  (An
    iterator keeps its list alive, so the last case does not arise in a
    run of the program.) *)
Definition iterate (items : ref) (index : nat) (spec : Specification)
    (h : heap) : signal * generator * heap :=
  match h !! items with
  | Some (PyList elems) =>
      match elems !! index with
      | Some item =>
          match is_satisfied spec item h with
          | (Return true, h') =>
              (Yielded item, GenIterating items (S index) spec, h')
          | (Return false, h') =>
              (Rejected, GenIterating items (S index) spec, h')
          | (Raise e, h') => (Raised (leaving_generator e), GenClosed, h')
          end
      | None => (Exhausted, GenClosed, h)
      end
  | _ => (Exhausted, GenClosed, h)
  end.

(** Resume the generator for one loop iteration.  The first resumption
    evaluates [iter(items)], which raises [TypeError] unless [items] is a
    list. *)
Definition advance (g : generator) (h : heap) : signal * generator * heap :=
  match g with
  | GenCreated items spec =>
      match h !! items with
      | Some (PyList _) => iterate items 0 spec h
      | _ => (Raised TypeError, GenClosed, h)
      end
  | GenIterating items index spec => iterate items index spec h
  | GenClosed => (Exhausted, GenClosed, h)
  end.

(** [next(g)]: run to the next [yield], to the end, or to an exception.
    A predicate that grows the list while it is being traversed can keep
    the loop running for ever, hence the fuel: [None] is out of fuel. *)
Fixpoint next (fuel : nat) (g : generator) (h : heap)
  : option (signal * generator * heap) :=
  match fuel with
  | 0 => None
  | S fuel' =>
      match advance g h with
      | (Rejected, g', h') => next fuel' g' h'
      | r => Some r
      end
  end.

(** [for p in g: ...] collecting every yielded reference, with how the
    traversal ended and the final heap. *)
Fixpoint collect (fuel : nat) (g : generator) (h : heap)
  : option (list positive * outcome unit * heap) :=
  match fuel with
  | 0 => None
  | S fuel' =>
      match advance g h with
      | (Yielded item, g', h') =>
          match collect fuel' g' h' with
          | Some (ys, r, h'') => Some (item :: ys, r, h'')
          | None => None
          end
      | (Rejected, g', h') => collect fuel' g' h'
      | (Exhausted, _, h') => Some ([], Return (), h')
      | (Raised e, _, h') => Some ([], Raise e, h')
      end
  end.

(** ** The demonstration (STEP 7) *)

Record demo := {
  apple : positive;
  tree : positive;
  room : positive;
  products : positive;
  demo_heap : gmap positive object
}.

(** The objects created by the main block, in its order. *)
Definition main_setup : demo :=
  let '(apple, h) := Product_init (VStr "Apple") (VColor RED) (VSize SMALL) ∅ in
  let '(tree, h) := Product_init (VStr "Tree") (VColor GREEN) (VSize LARGE) h in
  let '(room, h) := Product_init (VStr "Room") (VColor BLUE) (VSize LARGE) h in
  let '(products, h) := alloc (PyList [apple; tree; room]) h in
  {| apple := apple; tree := tree; room := room; products := products;
     demo_heap := h |}.

Definition green_spec := ColorSpecification (VColor GREEN).
Definition large_spec := SizeSpecification (VSize LARGE).
Definition large_blue_spec := and_ large_spec (ColorSpecification (VColor BLUE)).

(** ** Notions used to state the properties *)

(** Which attribute a leaf class compares, and with which target value. *)
Definition attribute_of (spec : Specification) : option (string * value) :=
  match spec with
  | ColorSpecification color => Some ("color", color)
  | SizeSpecification size => Some ("size", size)
  | _ => None
  end.

(** Whether the check returns [True] on the item. *)
Definition holds (spec : Specification) (h : heap) (x : ref) : bool :=
  match (is_satisfied spec x h).1 with
  | Return true => true
  | _ => false
  end.

(** The check leaves the heap as it found it. *)
Definition pure_at (spec : Specification) (h : heap) (x : ref) : Prop :=
  (is_satisfied spec x h).2 = h.

(** The check returns a boolean and leaves the heap as it found it. *)
Definition decides_at (spec : Specification) (h : heap) (x : ref) : Prop :=
  ∃ b : bool, is_satisfied spec x h = (Return b, h).

(** The specifications built from the classes of the module alone. *)
Fixpoint builtin (spec : Specification) : bool :=
  match spec with
  | Specification_base | ColorSpecification _ | SizeSpecification _ => true
  | AndSpecification specifications => forallb builtin specifications
  | UserSpecification _ => false
  end.

(** The traversal of a list by a check that does not write the heap, as a
    recursion on the list: the references yielded, and how it ended. *)
Fixpoint scan (spec : Specification) (h : heap) (l : list positive)
  : list positive * outcome unit :=
  match l with
  | [] => ([], Return ())
  | x :: l' =>
      match (is_satisfied spec x h).1 with
      | Return true => let '(ys, r) := scan spec h l' in (x :: ys, r)
      | Return false => scan spec h l'
      | Raise e => ([], Raise (leaving_generator e))
      end
  end.

(** The predicates the specification document describes: attribute
    predicates and conjunctions of such. *)
Fixpoint attribute_tree (spec : Specification) : bool :=
  match spec with
  | ColorSpecification _ | SizeSpecification _ => true
  | AndSpecification specifications => forallb attribute_tree specifications
  | Specification_base | UserSpecification _ => false
  end.

(** The object has the two attributes the leaf classes read. *)
Definition is_product (h : heap) (x : ref) : Prop :=
  ∃ attrs color size,
    h !! x = Some (PyInstance attrs) ∧
    attrs !! "color" = Some color ∧ attrs !! "size" = Some size.

(** ** Further objects and a further subclass, for the examples *)

(** A second list over the products of the demonstration, with one of
    them twice. *)
Definition shelf_alloc : ref * heap :=
  alloc (PyList [tree main_setup; room main_setup; tree main_setup])
    (demo_heap main_setup).
Definition shelf : ref := shelf_alloc.1.
Definition shelf_heap : heap := shelf_alloc.2.

(** An object with a name and nothing else, and a list holding it between
    two products. *)
Definition crate_alloc : ref * heap :=
  alloc (PyInstance {[ "name" := VStr "Crate" ]}) (demo_heap main_setup).
Definition crate : ref := crate_alloc.1.
Definition crates_alloc : ref * heap :=
  alloc (PyList [tree main_setup; crate; room main_setup]) crate_alloc.2.
Definition crates : ref := crates_alloc.1.
Definition crate_heap : heap := crates_alloc.2.

(** An empty list. *)
Definition pantry_alloc : ref * heap :=
  alloc (PyList []) (demo_heap main_setup).
Definition pantry : ref := pantry_alloc.1.
Definition pantry_heap : heap := pantry_alloc.2.


(** A subclass whose [is_satisfied] has a side effect: it sets
    [item.color = Color.RED] and returns [True]. *)
Definition repaint (item : ref) (h : heap) : outcome bool * heap :=
  match h !! item with
  | Some (PyInstance attrs) =>
      (Return true, <[item := PyInstance (<["color" := VColor RED]> attrs)]> h)
  | _ => (Raise AttributeError, h)
  end.

(** A subclass whose [is_satisfied] raises [StopIteration]. *)
Definition stop (item : ref) (h : heap) : outcome bool * heap :=
  (Raise StopIteration, h).

(** * The demonstration, run *)

Example main_green :
  collect 4 (ProductFilter_filter (products main_setup) green_spec)
    (demo_heap main_setup)
  = Some ([tree main_setup], Return (), demo_heap main_setup).
Proof. vm_compute. reflexivity. Qed.

Example main_large :
  collect 4 (ProductFilter_filter (products main_setup) large_spec)
    (demo_heap main_setup)
  = Some ([tree main_setup; room main_setup], Return (), demo_heap main_setup).
Proof. vm_compute. reflexivity. Qed.

Example main_large_blue :
  collect 4 (ProductFilter_filter (products main_setup) large_blue_spec)
    (demo_heap main_setup)
  = Some ([room main_setup], Return (), demo_heap main_setup).
Proof. vm_compute. reflexivity. Qed.

(** * Properties of the predicates *)

(** ** Evaluation of a conjunction *)

Lemma is_satisfied_and_nil item (h : gmap positive object) :
  is_satisfied (AndSpecification []) item h = (Return true, h).
Proof. reflexivity. Qed.

Lemma is_satisfied_and_cons spec specs item (h : gmap positive object) :
  is_satisfied (AndSpecification (spec :: specs)) item h
  = match is_satisfied spec item h with
    | (Return true, h') => is_satisfied (AndSpecification specs) item h'
    | (Return false, h') => (Return false, h')
    | (Raise e, h') => (Raise (leaving_generator e), h')
    end.
Proof. reflexivity. Qed.

Lemma leaving_generator_idemp e :
  leaving_generator (leaving_generator e) = leaving_generator e.
Proof. destruct e; reflexivity. Qed.

(** Evaluating a conjunction of one child is evaluating the child inside
    a generator expression. *)
Lemma is_satisfied_and_single spec item (h : gmap positive object) :
  is_satisfied (AndSpecification [spec]) item h
  = match is_satisfied spec item h with
    | (Raise e, h') => (Raise (leaving_generator e), h')
    | r => r
    end.
Proof.
  rewrite is_satisfied_and_cons.
  destruct (is_satisfied spec item h) as [[[]|e] h']; reflexivity.
Qed.

(** The exception of a conjunction is one that has left a generator. *)
Lemma is_satisfied_and_raise specs item (h h' : gmap positive object) e :
  is_satisfied (AndSpecification specs) item h = (Raise e, h') →
  leaving_generator e = e.
Proof.
  revert h. induction specs as [|spec specs IH]; intros h; [done|].
  rewrite is_satisfied_and_cons.
  destruct (is_satisfied spec item h) as [[[]|e0] h0].
  - apply IH.
  - done.
  - intros [= <- <-]. apply leaving_generator_idemp.
Qed.

(** The children of a concatenation are evaluated in sequence: the second
    part runs only when the whole first part held, from the heap it left. *)
Lemma is_satisfied_and_app pre post item (h : gmap positive object) :
  is_satisfied (AndSpecification (pre ++ post)) item h
  = match is_satisfied (AndSpecification pre) item h with
    | (Return true, h') => is_satisfied (AndSpecification post) item h'
    | (Return false, h') => (Return false, h')
    | (Raise e, h') => (Raise e, h')
    end.
Proof.
  revert h. induction pre as [|spec pre IH]; intros h.
  - reflexivity.
  - rewrite <- app_comm_cons, !is_satisfied_and_cons.
    destruct (is_satisfied spec item h) as [[[]|e] h']; auto.
Qed.

(** C1: for every item and every two predicates A and B, evaluating
    [A & B] on the item is evaluating [A.is_satisfied(x) and
    B.is_satisfied(x)]: same boolean and same final heap whenever the
    operands return, and the same exception when one raises, except that a
    [StopIteration] of an operand leaves the conjunction as a
    [RuntimeError]. *)
Theorem and_conjunction_correct (A B : Specification) (x : positive)
    (h : gmap positive object) :
  is_satisfied (and_ A B) x h
  = match py_and (is_satisfied A x) (is_satisfied B x) h with
    | (Raise e, h') => (Raise (leaving_generator e), h')
    | r => r
    end ∧
  ((py_and (is_satisfied A x) (is_satisfied B x) h).1 ≠ Raise StopIteration →
   is_satisfied (and_ A B) x h
   = py_and (is_satisfied A x) (is_satisfied B x) h).
Proof.
  assert (Hgen : is_satisfied (and_ A B) x h
                 = match py_and (is_satisfied A x) (is_satisfied B x) h with
                   | (Raise e, h') => (Raise (leaving_generator e), h')
                   | r => r
                   end).
  { unfold and_, py_and. rewrite is_satisfied_and_cons.
    destruct (is_satisfied A x h) as [[[]|e] h']; try reflexivity.
    apply is_satisfied_and_single. }
  split; [exact Hgen|].
  rewrite Hgen.
  destruct (py_and (is_satisfied A x) (is_satisfied B x) h) as [[b|e] h'];
    [reflexivity|].
  destruct e; simpl; intros Hstop; try reflexivity. by destruct Hstop.
Qed.

(** C3: chained combination associates: [(A & B) & C] and [A & (B & C)]
    evaluate alike on every item, from every heap. *)
Theorem and_associative (A B C : Specification) (x : positive)
    (h : gmap positive object) :
  is_satisfied (and_ (and_ A B) C) x h
  = is_satisfied (and_ A (and_ B C)) x h.
Proof.
  unfold and_.
  rewrite (is_satisfied_and_cons (AndSpecification [A; B])).
  rewrite (is_satisfied_and_cons A [AndSpecification [B; C]]).
  rewrite (is_satisfied_and_cons A [B]).
  destruct (is_satisfied A x h) as [[[]|e] h1]; try reflexivity.
  - rewrite (is_satisfied_and_single (AndSpecification [B; C])).
    rewrite (is_satisfied_and_single B), (is_satisfied_and_cons B [C]).
    destruct (is_satisfied B x h1) as [[[]|e] h2].
    + rewrite !(is_satisfied_and_single C).
      destruct (is_satisfied C x h2) as [[[]|e] h3]; try reflexivity.
      by rewrite leaving_generator_idemp.
    + reflexivity.
    + by rewrite !leaving_generator_idemp.
  - by rewrite leaving_generator_idemp.
Qed.

(** C6: a conjunction can be built from no children at all, and the one
    so built is satisfied by every item, whatever the heap. *)
Theorem empty_conjunction_vacuous :
  AndSpecification_init [] = Return (AndSpecification []) ∧
  ∀ (x : positive) (h : gmap positive object),
    is_satisfied (AndSpecification []) x h = (Return true, h).
Proof. split; [reflexivity | intros x h; apply is_satisfied_and_nil]. Qed.

(** C5: children are evaluated from left to right and evaluation stops at
    the first child that is false.  When the children before [Pi] all held
    and [Pi] is false, the conjunction is false with the heap [Pi] left,
    whatever the children after [Pi] are: they are not run, so neither
    their effects nor their exceptions show. *)
Theorem and_short_circuit (pre post : list Specification)
    (Pi : Specification) (x : positive) (h h1 h2 : gmap positive object) :
  is_satisfied (AndSpecification pre) x h = (Return true, h1) →
  is_satisfied Pi x h1 = (Return false, h2) →
  is_satisfied (AndSpecification (pre ++ Pi :: post)) x h = (Return false, h2).
Proof.
  intros Hpre HPi.
  rewrite is_satisfied_and_app, Hpre, is_satisfied_and_cons, HPi.
  reflexivity.
Qed.

(** C10: for predicates that return without raising and leave the heap as
    it is, the order of the operands does not change the result, although
    the two conjunctions are different values unless the operands are the
    same. *)
Theorem and_commutative_pure (A B : Specification) (x : positive)
    (h : gmap positive object) (a b : bool) :
  is_satisfied A x h = (Return a, h) →
  is_satisfied B x h = (Return b, h) →
  is_satisfied (and_ A B) x h = is_satisfied (and_ B A) x h ∧
  (A ≠ B → and_ A B ≠ and_ B A).
Proof.
  intros HA HB. split.
  - unfold and_.
    rewrite (is_satisfied_and_cons A [B]), (is_satisfied_and_cons B [A]).
    rewrite HA, HB.
    destruct a, b; rewrite ?is_satisfied_and_single, ?HA, ?HB; reflexivity.
  - intros Hne Heq. apply Hne. unfold and_ in Heq. congruence.
Qed.

(** ** Attribute predicates *)

Lemma is_satisfied_attribute spec name target item (h : gmap positive object) :
  attribute_of spec = Some (name, target) →
  is_satisfied spec item h
  = match getattr h item name with
    | Return v => (Return (py_eq v target), h)
    | Raise e => (Raise e, h)
    end.
Proof. destruct spec; intros [= <- <-]; reflexivity. Qed.

(** C4: an attribute predicate evaluated on an item that has no such
    attribute raises [AttributeError] instead of returning [False]; a
    conjunction that reaches this child raises it too; and a traversal
    that reaches this item hands the exception to its caller and ends,
    instead of skipping the item. *)
Theorem missing_attribute_raises (spec : Specification) (name : string)
    (target : value) (item : positive) (attrs : gmap string value)
    (h : gmap positive object) :
  attribute_of spec = Some (name, target) →
  h !! item = Some (PyInstance attrs) →
  attrs !! name = None →
  is_satisfied spec item h = (Raise AttributeError, h) ∧
  (∀ (pre post : list Specification) (h0 : gmap positive object),
     is_satisfied (AndSpecification pre) item h0 = (Return true, h) →
     is_satisfied (AndSpecification (pre ++ spec :: post)) item h0
     = (Raise AttributeError, h)) ∧
  (∀ (items : positive) (elems : list positive) (index fuel : nat),
     h !! items = Some (PyList elems) →
     elems !! index = Some item →
     next (S fuel) (GenIterating items index spec) h
     = Some (Raised AttributeError, GenClosed, h)).
Proof.
  intros Hattr Hitem Hname.
  assert (Hsat : is_satisfied spec item h = (Raise AttributeError, h)).
  { rewrite (is_satisfied_attribute _ _ _ _ _ Hattr).
    unfold getattr. rewrite Hitem, Hname. reflexivity. }
  split; [exact Hsat | split].
  - intros pre post h0 Hpre.
    rewrite is_satisfied_and_app, Hpre, is_satisfied_and_cons, Hsat.
    reflexivity.
  - intros items elems index fuel Hitems Hindex.
    simpl. unfold iterate. rewrite Hitems, Hindex, Hsat. reflexivity.
Qed.

(** * Properties of the filter *)

(** ** The classes of the module do not write the heap *)

(** Induction on specifications, with the children of a conjunction. *)
Lemma Specification_nested_ind (Q : Specification → Prop) :
  Q Specification_base →
  (∀ color, Q (ColorSpecification color)) →
  (∀ size, Q (SizeSpecification size)) →
  (∀ specs, Forall Q specs → Q (AndSpecification specs)) →
  (∀ method, Q (UserSpecification method)) →
  ∀ spec, Q spec.
Proof.
  intros Hbase Hcolor Hsize Hand Huser. fix IH 1.
  intros [| color | size | specs | method].
  - exact Hbase.
  - apply Hcolor.
  - apply Hsize.
  - apply Hand. induction specs as [|spec specs IHspecs]; constructor.
    + apply IH.
    + exact IHspecs.
  - apply Huser.
Qed.

Lemma builtin_pure spec (x : positive) :
  builtin spec = true → ∀ h : gmap positive object, pure_at spec h x.
Proof.
  unfold pure_at.
  induction spec as [| color | size | specs IH | method]
    using Specification_nested_ind; intros Hb h.
  - reflexivity.
  - simpl. destruct (getattr h x "color"); reflexivity.
  - simpl. destruct (getattr h x "size"); reflexivity.
  - simpl in Hb. revert h.
    induction IH as [|spec specs Hspec _ IHspecs]; intros h.
    + reflexivity.
    + simpl in Hb. apply andb_prop in Hb as [Hb1 Hb2].
      rewrite is_satisfied_and_cons.
      specialize (Hspec Hb1 h).
      destruct (is_satisfied spec x h) as [[[]|e] h']; simpl in Hspec;
        subst h'; try reflexivity.
      apply IHspecs, Hb2.
  - discriminate.
Qed.

(** ** The generator against the recursion on the list *)

Lemma collect_created fuel items elems spec (h : gmap positive object) :
  h !! items = Some (PyList elems) →
  collect fuel (ProductFilter_filter items spec) h
  = collect fuel (GenIterating items 0 spec) h.
Proof. intros Hitems. destruct fuel; simpl; rewrite ?Hitems; reflexivity. Qed.

(** With a check that does not write the heap, the generator started at
    position [i] yields what the recursion yields on the rest of the list,
    and one unit of fuel per remaining element and one more is enough. *)
Lemma collect_iterating items elems spec (h : gmap positive object) :
  h !! items = Some (PyList elems) →
  ∀ fuel i,
    Forall (pure_at spec h) (drop i elems) →
    length elems - i < fuel →
    collect fuel (GenIterating items i spec) h
    = Some (scan spec h (drop i elems), h).
Proof.
  intros Hitems. induction fuel as [|fuel IH]; intros i Hpure Hfuel; [lia|].
  simpl. unfold iterate. rewrite Hitems.
  destruct (elems !! i) as [x|] eqn:Hi.
  - rewrite (drop_S _ _ _ Hi) in Hpure |- *.
    apply lookup_lt_Some in Hi.
    apply Forall_cons in Hpure as [Hx Hrest]. unfold pure_at in Hx.
    simpl. destruct (is_satisfied spec x h) as [[[]|e] h'];
      simpl in Hx; subst h'; simpl.
    + rewrite IH by (done || lia).
      destruct (scan spec h (drop (S i) elems)); reflexivity.
    + apply IH; [done | lia].
    + reflexivity.
  - apply lookup_ge_None in Hi. rewrite drop_ge by done. reflexivity.
Qed.

Lemma collect_filter_scan items elems spec (h : gmap positive object) fuel :
  h !! items = Some (PyList elems) →
  Forall (pure_at spec h) elems →
  length elems < fuel →
  collect fuel (ProductFilter_filter items spec) h
  = Some (scan spec h elems, h).
Proof.
  intros Hitems Hpure Hfuel.
  rewrite (collect_created _ _ _ _ _ Hitems).
  rewrite (collect_iterating _ _ _ _ Hitems fuel 0); rewrite ?drop_0;
    done || lia.
Qed.

Lemma scan_sublist spec (h : gmap positive object) l :
  (scan spec h l).1 `sublist_of` l.
Proof.
  induction l as [|x l IH]; simpl; [constructor|].
  destruct (is_satisfied spec x h).1 as [[]|e]; simpl.
  - destruct (scan spec h l); simpl in *. by constructor.
  - by constructor.
  - apply sublist_nil_l.
Qed.

Lemma decides_pure spec (h : gmap positive object) x :
  decides_at spec h x → pure_at spec h x.
Proof. intros [b Hb]. unfold pure_at. rewrite Hb. reflexivity. Qed.

Lemma scan_decides spec (h : gmap positive object) l :
  Forall (decides_at spec h) l →
  scan spec h l = (List.filter (holds spec h) l, Return ()).
Proof.
  induction 1 as [|x l [b Hb] _ IH]; simpl; [reflexivity|].
  unfold holds. rewrite Hb, IH. destruct b; reflexivity.
Qed.

(** C2: when the predicate returns a boolean on every item of the
    collection and leaves the heap alone, the traversal ends normally and
    the references it yields are exactly the items on which the predicate
    is true, each as often and in the order the collection has it. *)
Theorem filter_exact_subsequence (items : positive) (C : list positive)
    (P : Specification) (h : gmap positive object) (fuel : nat) :
  h !! items = Some (PyList C) →
  Forall (decides_at P h) C →
  length C < fuel →
  collect fuel (ProductFilter_filter items P) h
  = Some (List.filter (holds P h) C, Return (), h).
Proof.
  intros Hitems Hdec Hfuel.
  rewrite (collect_filter_scan _ _ _ _ _ Hitems); [| | done].
  - rewrite scan_decides by done. reflexivity.
  - eapply Forall_impl; [exact Hdec | apply decides_pure].
Qed.

(** C9: when the predicate leaves the heap alone on the items of the
    collection, so does the traversal, however it ends: the list and every
    object are as before, nothing is allocated, and the references yielded
    are references of the list, in its order. *)
Theorem filter_frame (items : positive) (C : list positive)
    (P : Specification) (h : gmap positive object) (fuel : nat) :
  h !! items = Some (PyList C) →
  Forall (pure_at P h) C →
  length C < fuel →
  ∃ (ys : list positive) (r : outcome unit),
    collect fuel (ProductFilter_filter items P) h = Some (ys, r, h) ∧
    ys `sublist_of` C.
Proof.
  intros Hitems Hpure Hfuel.
  exists (scan P h C).1, (scan P h C).2. split.
  - rewrite (collect_filter_scan _ _ _ _ _ Hitems) by done.
    destruct (scan P h C); reflexivity.
  - apply scan_sublist.
Qed.

Lemma attribute_pure spec name target (h : gmap positive object) x :
  attribute_of spec = Some (name, target) → pure_at spec h x.
Proof.
  intros Hattr. unfold pure_at.
  rewrite (is_satisfied_attribute _ _ _ _ _ Hattr).
  destruct (getattr h x name); reflexivity.
Qed.

Lemma scan_attribute_none spec name target (h : gmap positive object) l :
  attribute_of spec = Some (name, target) →
  Forall (λ x, ∃ v, getattr h x name = Return v ∧ v ≠ target) l →
  scan spec h l = ([], Return ()).
Proof.
  intros Hattr. induction 1 as [|x l (v & Hv & Hne) _ IH]; simpl; [done|].
  rewrite (is_satisfied_attribute _ _ _ _ _ Hattr), Hv. simpl.
  unfold py_eq. rewrite bool_decide_eq_false_2 by done. exact IH.
Qed.

Lemma scan_attribute_all spec name target (h : gmap positive object) l :
  attribute_of spec = Some (name, target) →
  Forall (λ x, getattr h x name = Return target) l →
  scan spec h l = (l, Return ()).
Proof.
  intros Hattr. induction 1 as [|x l Hv _ IH]; simpl; [done|].
  rewrite (is_satisfied_attribute _ _ _ _ _ Hattr), Hv. simpl.
  unfold py_eq. rewrite bool_decide_eq_true_2 by done.
  rewrite IH. reflexivity.
Qed.

(** C8: on a collection whose items all have the attribute, an attribute
    predicate whose target differs from the value of every item yields
    nothing, and one whose target is the value of every item yields the
    collection itself. *)
Theorem filter_none_or_all (items : positive) (C : list positive)
    (P : Specification) (name : string) (target : value)
    (h : gmap positive object) (fuel : nat) :
  attribute_of P = Some (name, target) →
  h !! items = Some (PyList C) →
  length C < fuel →
  (Forall (λ x, ∃ v, getattr h x name = Return v ∧ v ≠ target) C →
   collect fuel (ProductFilter_filter items P) h = Some ([], Return (), h)) ∧
  (Forall (λ x, getattr h x name = Return target) C →
   collect fuel (ProductFilter_filter items P) h = Some (C, Return (), h)).
Proof.
  intros Hattr Hitems Hfuel.
  assert (Hpure : Forall (pure_at P h) C).
  { apply Forall_forall. intros x _. exact (attribute_pure _ _ _ _ _ Hattr). }
  rewrite (collect_filter_scan _ _ _ _ _ Hitems Hpure Hfuel).
  split; intros Hall.
  - rewrite (scan_attribute_none _ _ _ _ _ Hattr Hall). reflexivity.
  - rewrite (scan_attribute_all _ _ _ _ _ Hattr Hall). reflexivity.
Qed.

(** ** The predicates and items of the specification document *)

(** An attribute predicate, or a conjunction of such to any depth,
    returns a boolean on every product and writes nothing: the two
    conditions above hold of all of them. *)
Lemma product_decides spec (h : gmap positive object) (x : positive) :
  attribute_tree spec = true → is_product h x → decides_at spec h x.
Proof.
  intros Htree (attrs & color & size & Hx & Hcolor & Hsize).
  unfold decides_at.
  induction spec as [| c | s | specs IH | method]
    using Specification_nested_ind; try discriminate.
  - eexists. simpl. unfold getattr. rewrite Hx, Hcolor. reflexivity.
  - eexists. simpl. unfold getattr. rewrite Hx, Hsize. reflexivity.
  - simpl in Htree.
    induction IH as [|spec specs Hspec _ IHspecs].
    + exists true. reflexivity.
    + simpl in Htree. apply andb_prop in Htree as [Hb1 Hb2].
      destruct (Hspec Hb1) as [b Hb]. rewrite is_satisfied_and_cons, Hb.
      destruct b; [exact (IHspecs Hb2) | by exists false].
Qed.

(** * The demonstration and further runs *)

(** C7: on the three products of the demonstration, large and blue
    selects the room and nothing else, and red and large selects nothing;
    both traversals end normally and change nothing. *)
Theorem demo_conjunctions :
  let h := demo_heap main_setup in
  getattr h (apple main_setup) "name" = Return (VStr "Apple") ∧
  getattr h (tree main_setup) "name" = Return (VStr "Tree") ∧
  getattr h (room main_setup) "name" = Return (VStr "Room") ∧
  h !! products main_setup
  = Some (PyList [apple main_setup; tree main_setup; room main_setup]) ∧
  collect 4
    (ProductFilter_filter (products main_setup)
       (and_ (SizeSpecification (VSize LARGE))
             (ColorSpecification (VColor BLUE)))) h
  = Some ([room main_setup], Return (), h) ∧
  collect 4
    (ProductFilter_filter (products main_setup)
       (and_ (ColorSpecification (VColor RED))
             (SizeSpecification (VSize LARGE)))) h
  = Some ([], Return (), h).
Proof. vm_compute. repeat split. Qed.

(** A conjunction stops before a child with a side effect... *)
Example short_circuit_hides_effect :
  let h := demo_heap main_setup in
  is_satisfied
    (AndSpecification [ColorSpecification (VColor RED);
                       UserSpecification repaint]) (tree main_setup) h
  = (Return false, h).
Proof. vm_compute. reflexivity. Qed.

(** ... which does show when it is evaluated first. *)
Example effect_shows_when_first :
  let h := demo_heap main_setup in
  let h' := (is_satisfied
    (AndSpecification [UserSpecification repaint;
                       ColorSpecification (VColor RED)]) (tree main_setup) h).2 in
  getattr h (tree main_setup) "color" = Return (VColor GREEN) ∧
  getattr h' (tree main_setup) "color" = Return (VColor RED).
Proof. vm_compute. split; reflexivity. Qed.

(** With a raising operand the order of the operands matters. *)
Example raising_operand_order :
  let h := demo_heap main_setup in
  let red := ColorSpecification (VColor RED) in
  is_satisfied (and_ red Specification_base) (tree main_setup) h
  = (Return false, h) ∧
  is_satisfied (and_ Specification_base red) (tree main_setup) h
  = (Raise NotImplementedError, h).
Proof. vm_compute. split; reflexivity. Qed.

(** [next] is lazy: the first resumption stops at the tree and has not
    looked at the room. *)
Example next_stops_at_first_match :
  next 4 (ProductFilter_filter (products main_setup) large_spec)
    (demo_heap main_setup)
  = Some (Yielded (tree main_setup),
          GenIterating (products main_setup) 2 large_spec,
          demo_heap main_setup).
Proof. vm_compute. reflexivity. Qed.

(** Iterating over something that is not a list raises [TypeError] at the
    first resumption. *)
Example filter_not_iterable :
  collect 1 (ProductFilter_filter (apple main_setup) large_spec)
    (demo_heap main_setup)
  = Some ([], Raise TypeError, demo_heap main_setup).
Proof. vm_compute. reflexivity. Qed.

(** A traversal that meets an item without the attribute yields what came
    before it and raises. *)
Example crate_stops_traversal :
  collect 4 (ProductFilter_filter crates large_spec) crate_heap
  = Some ([tree main_setup], Raise AttributeError, crate_heap).
Proof. vm_compute. reflexivity. Qed.

(** * The conditional properties at concrete inputs *)

(** Short circuit on the tree: it is large, it is not red, and the child
    that would raise is not reached. *)
Lemma and_short_circuit_witness :
  let h := demo_heap main_setup in
  let x := tree main_setup in
  is_satisfied (AndSpecification [large_spec]) x h = (Return true, h) ∧
  is_satisfied (ColorSpecification (VColor RED)) x h = (Return false, h) ∧
  is_satisfied Specification_base x h = (Raise NotImplementedError, h) ∧
  is_satisfied
    (AndSpecification
       ([large_spec] ++ ColorSpecification (VColor RED) :: [Specification_base]))
    x h
  = (Return false, h).
Proof.
  intros h x.
  assert (Hpre : is_satisfied (AndSpecification [large_spec]) x h
                 = (Return true, h)) by (vm_compute; reflexivity).
  assert (HPi : is_satisfied (ColorSpecification (VColor RED)) x h
                = (Return false, h)) by (vm_compute; reflexivity).
  refine (conj Hpre (conj HPi (conj _ _))); [vm_compute; reflexivity |].
  exact (and_short_circuit [large_spec] [Specification_base]
           (ColorSpecification (VColor RED)) x h h h Hpre HPi).
Defined.

(** Large and blue against blue and large, on the room. *)
Lemma and_commutative_pure_witness :
  let h := demo_heap main_setup in
  let x := room main_setup in
  let blue := ColorSpecification (VColor BLUE) in
  is_satisfied large_spec x h = (Return true, h) ∧
  is_satisfied blue x h = (Return true, h) ∧
  is_satisfied (and_ large_spec blue) x h
  = is_satisfied (and_ blue large_spec) x h ∧
  and_ large_spec blue ≠ and_ blue large_spec.
Proof.
  intros h x blue.
  assert (HA : is_satisfied large_spec x h = (Return true, h))
    by (vm_compute; reflexivity).
  assert (HB : is_satisfied blue x h = (Return true, h))
    by (vm_compute; reflexivity).
  destruct (and_commutative_pure large_spec blue x h true true HA HB)
    as [Heq Hne].
  refine (conj HA (conj HB (conj Heq _))).
  apply Hne. discriminate.
Defined.

(** The crate has a name and no colour. *)
Lemma missing_attribute_raises_witness :
  let h := crate_heap in
  let red := ColorSpecification (VColor RED) in
  h !! crate = Some (PyInstance {[ "name" := VStr "Crate" ]}) ∧
  is_satisfied red crate h = (Raise AttributeError, h) ∧
  is_satisfied (AndSpecification ([AndSpecification []] ++ red :: [large_spec]))
    crate h
  = (Raise AttributeError, h) ∧
  next 3 (GenIterating crates 1 red) h
  = Some (Raised AttributeError, GenClosed, h).
Proof.
  intros h red.
  assert (Hcrate : h !! crate
                   = Some (PyInstance {[ "name" := VStr "Crate" ]}))
    by (vm_compute; reflexivity).
  destruct (missing_attribute_raises red "color" (VColor RED) crate
              {[ "name" := VStr "Crate" ]} h eq_refl Hcrate eq_refl)
    as (Hsat & Hand & Hnext).
  refine (conj Hcrate (conj Hsat (conj _ _))).
  { apply (Hand [AndSpecification []] [large_spec] h). reflexivity. }
  apply (Hnext crates [tree main_setup; crate; room main_setup] 1 2);
    vm_compute; reflexivity.
Defined.

(** Green on the shelf: the tree, twice, as the shelf has it. *)
Lemma filter_exact_subsequence_witness :
  let h := shelf_heap in
  let C := [tree main_setup; room main_setup; tree main_setup] in
  h !! shelf = Some (PyList C) ∧
  Forall (decides_at green_spec h) C ∧
  collect 4 (ProductFilter_filter shelf green_spec) h
  = Some ([tree main_setup; tree main_setup], Return (), h).
Proof.
  intros h C.
  assert (Hshelf : h !! shelf = Some (PyList C)) by (vm_compute; reflexivity).
  assert (Hdec : Forall (decides_at green_spec h) C).
  { repeat (constructor; [eexists; vm_compute; reflexivity|]). constructor. }
  refine (conj Hshelf (conj Hdec _)).
  etrans;
    [exact (filter_exact_subsequence shelf C green_spec h 4 Hshelf Hdec
              ltac:(simpl; lia))
    | vm_compute; reflexivity].
Defined.

(** Large on the list with the crate: the traversal raises at the crate,
    and the heap is as it was. *)
Lemma filter_frame_witness :
  let h := crate_heap in
  let C := [tree main_setup; crate; room main_setup] in
  h !! crates = Some (PyList C) ∧
  Forall (pure_at large_spec h) C ∧
  ∃ (ys : list positive) (r : outcome unit),
    collect 4 (ProductFilter_filter crates large_spec) h = Some (ys, r, h) ∧
    ys `sublist_of` C.
Proof.
  intros h C.
  assert (Hcrates : h !! crates = Some (PyList C))
    by (vm_compute; reflexivity).
  assert (Hpure : Forall (pure_at large_spec h) C).
  { apply Forall_forall. intros x _. apply builtin_pure. reflexivity. }
  refine (conj Hcrates (conj Hpure _)).
  exact (filter_frame crates C large_spec h 4 Hcrates Hpure
           ltac:(simpl; lia)).
Defined.

(** Sizes on the shelf: nothing on it is small, everything on it is
    large. *)
Lemma filter_none_or_all_witness :
  let h := shelf_heap in
  let C := [tree main_setup; room main_setup; tree main_setup] in
  h !! shelf = Some (PyList C) ∧
  collect 4 (ProductFilter_filter shelf (SizeSpecification (VSize SMALL))) h
  = Some ([], Return (), h) ∧
  collect 4 (ProductFilter_filter shelf (SizeSpecification (VSize LARGE))) h
  = Some (C, Return (), h).
Proof.
  intros h C.
  assert (Hshelf : h !! shelf = Some (PyList C)) by (vm_compute; reflexivity).
  refine (conj Hshelf (conj _ _)).
  - apply (filter_none_or_all shelf C (SizeSpecification (VSize SMALL))
             "size" (VSize SMALL) h 4 eq_refl Hshelf ltac:(simpl; lia)).
    repeat (constructor;
            [exists (VSize LARGE); split;
             [vm_compute; reflexivity | discriminate]|]).
    constructor.
  - apply (filter_none_or_all shelf C (SizeSpecification (VSize LARGE))
             "size" (VSize LARGE) h 4 eq_refl Hshelf ltac:(simpl; lia)).
    repeat (constructor; [vm_compute; reflexivity|]).
    constructor.
Defined.

(** * Further properties of the module *)

(** ** Allocation and [Product.__init__] *)

Lemma alloc_fresh o (h : gmap positive object) : h !! (alloc o h).1 = None.
Proof. apply not_elem_of_dom. simpl. apply is_fresh. Qed.

Lemma alloc_lookup o (h : gmap positive object) :
  (alloc o h).2 !! (alloc o h).1 = Some o.
Proof. simpl. apply lookup_insert_eq. Qed.

Lemma alloc_delete o (h : gmap positive object) :
  delete (alloc o h).1 (alloc o h).2 = h.
Proof.
  simpl. rewrite delete_insert_eq. apply delete_id.
  apply (alloc_fresh o h).
Qed.

Lemma alloc_keeps o (h : gmap positive object) r0 o0 :
  h !! r0 = Some o0 → (alloc o h).2 !! r0 = Some o0.
Proof.
  intros Hr0. simpl. rewrite lookup_insert_ne; [done|].
  intros Heq. pose proof (alloc_fresh o h) as Hfresh. simpl in Hfresh.
  rewrite Heq in Hfresh. congruence.
Qed.

Lemma Product_init_lookup (name color size : value)
    (h : gmap positive object) :
  (Product_init name color size h).2 !! (Product_init name color size h).1
  = Some (PyInstance {[ "name" := name; "color" := color; "size" := size ]}).
Proof. apply alloc_lookup. Qed.

Lemma Product_init_getattr (name color size : value)
    (h : gmap positive object) :
  let r := (Product_init name color size h).1 in
  let h' := (Product_init name color size h).2 in
  getattr h' r "color" = Return color ∧ getattr h' r "size" = Return size.
Proof.
  intros r h'. unfold getattr, h', r. rewrite Product_init_lookup.
  split; reflexivity.
Qed.

(** X1: [Product(name, color, size)] is a new object, at a reference the
    heap did not use, whose three attributes read back as the arguments
    given. *)
Theorem Product_init_attributes (name color size : value)
    (h : gmap positive object) :
  let r := (Product_init name color size h).1 in
  let h' := (Product_init name color size h).2 in
  h !! r = None ∧
  getattr h' r "name" = Return name ∧
  getattr h' r "color" = Return color ∧
  getattr h' r "size" = Return size.
Proof.
  intros r h'. split; [apply alloc_fresh|].
  unfold getattr, h', r, Product_init. rewrite alloc_lookup.
  repeat split.
Qed.

(** X2: [Product(name, color, size)] changes nothing else: without the
    new object the heap is the one before, so every object that was there
    is still there with the same content. *)
Theorem Product_init_frame (name color size : value)
    (h : gmap positive object) :
  let r := (Product_init name color size h).1 in
  let h' := (Product_init name color size h).2 in
  delete r h' = h ∧
  ∀ (r0 : positive) (o : object), h !! r0 = Some o → h' !! r0 = Some o.
Proof.
  intros r h'. split; [apply alloc_delete|].
  intros r0 o. apply alloc_keeps.
Qed.

(** X3: on a product just built, a colour predicate returns whether the
    product's colour is its target, and a size predicate whether the
    product's size is its target; neither raises nor writes. *)
Theorem Product_init_satisfies (name color size target : value)
    (h : gmap positive object) :
  let r := (Product_init name color size h).1 in
  let h' := (Product_init name color size h).2 in
  is_satisfied (ColorSpecification target) r h'
  = (Return (bool_decide (color = target)), h') ∧
  is_satisfied (SizeSpecification target) r h'
  = (Return (bool_decide (size = target)), h').
Proof.
  intros r h'.
  destruct (Product_init_getattr name color size h) as (Hc & Hs).
  fold r h' in Hc, Hs. split.
  - rewrite (is_satisfied_attribute (ColorSpecification target) "color"
               target r h' eq_refl), Hc.
    reflexivity.
  - rewrite (is_satisfied_attribute (SizeSpecification target) "size"
               target r h' eq_refl), Hs.
    reflexivity.
Qed.

(** ** The algebra of conjunctions *)

(** A conjunction in first position can be replaced by its children. *)
Lemma is_satisfied_and_nested mid post item (h : gmap positive object) :
  is_satisfied (AndSpecification (AndSpecification mid :: post)) item h
  = is_satisfied (AndSpecification (mid ++ post)) item h.
Proof.
  rewrite is_satisfied_and_cons, is_satisfied_and_app.
  destruct (is_satisfied (AndSpecification mid) item h) as [[[]|e] h']
    eqn:Hmid; try reflexivity.
  by rewrite (is_satisfied_and_raise _ _ _ _ _ Hmid).
Qed.

(** When every child returns a boolean and writes nothing, the conjunction
    returns the conjunction of these booleans and writes nothing. *)
Lemma is_satisfied_and_forallb specs item (h : gmap positive object) :
  Forall (λ spec, decides_at spec h item) specs →
  is_satisfied (AndSpecification specs) item h
  = (Return (forallb (λ spec, holds spec h item) specs), h).
Proof.
  induction 1 as [|spec specs [b Hb] _ IH]; [reflexivity|].
  rewrite is_satisfied_and_cons, Hb. simpl. unfold holds at 1. rewrite Hb.
  destruct b; [exact IH | reflexivity].
Qed.

Lemma forallb_Permutation {A} (f : A → bool) (l1 l2 : list A) :
  l1 ≡ₚ l2 → forallb f l1 = forallb f l2.
Proof.
  induction 1 as [|a l1 l2 ? IH|a b l|l1 l2 l3 ? IH1 ? IH2]; simpl.
  - reflexivity.
  - by rewrite IH.
  - destruct (f a), (f b); reflexivity.
  - by rewrite IH1.
Qed.

(** X4: when every child of a conjunction returns a boolean on the item
    and writes nothing, the conjunction returns whether all of them are
    true: it is true exactly when each child is. *)
Theorem and_all_children (specs : list Specification) (x : positive)
    (h : gmap positive object) :
  Forall (λ spec, decides_at spec h x) specs →
  is_satisfied (AndSpecification specs) x h
  = (Return (forallb (λ spec, holds spec h x) specs), h) ∧
  (is_satisfied (AndSpecification specs) x h = (Return true, h) ↔
   Forall (λ spec, is_satisfied spec x h = (Return true, h)) specs).
Proof.
  intros Hdec. split; [by apply is_satisfied_and_forallb|].
  rewrite (is_satisfied_and_forallb _ _ _ Hdec).
  induction Hdec as [|spec specs [b Hb] _ IH]; simpl.
  - split; [constructor | reflexivity].
  - unfold holds at 1. rewrite Hb. simpl. rewrite Forall_cons, Hb.
    destruct b; simpl.
    + rewrite IH.
      split; [intros Hall; split; [reflexivity | exact Hall] | by intros [_ ?]].
    + split; [discriminate | intros [[=] _]].
Qed.

(** X5: a conjunction nested among the children of another can be
    replaced by its own children, in place: both evaluate alike on every
    item, for all predicates. *)
Theorem and_flatten (pre mid post : list Specification) (x : positive)
    (h : gmap positive object) :
  is_satisfied (AndSpecification (pre ++ AndSpecification mid :: post)) x h
  = is_satisfied (AndSpecification (pre ++ mid ++ post)) x h.
Proof.
  rewrite !(is_satisfied_and_app pre).
  destruct (is_satisfied (AndSpecification pre) x h) as [[[]|e] h'];
    try reflexivity.
  apply is_satisfied_and_nested.
Qed.

(** X6: the empty conjunction is neutral for [&] on both sides: with it,
    [A] evaluates as [A] inside a generator expression, that is, as [A]
    itself unless [A] raises [StopIteration], which becomes
    [RuntimeError]. *)
Theorem and_neutral (A : Specification) (x : positive)
    (h : gmap positive object) :
  let inside :=
    match is_satisfied A x h with
    | (Raise e, h') => (Raise (leaving_generator e), h')
    | r => r
    end in
  is_satisfied (and_ A (AndSpecification [])) x h = inside ∧
  is_satisfied (and_ (AndSpecification []) A) x h = inside ∧
  ((is_satisfied A x h).1 ≠ Raise StopIteration →
   inside = is_satisfied A x h).
Proof.
  intros inside. unfold and_. split; [|split].
  - rewrite is_satisfied_and_cons. unfold inside.
    destruct (is_satisfied A x h) as [[[]|e] h']; reflexivity.
  - rewrite is_satisfied_and_nested. apply is_satisfied_and_single.
  - unfold inside. destruct (is_satisfied A x h) as [[b|e] h']; [done|].
    destruct e; simpl; intros Hstop; try reflexivity. by destruct Hstop.
Qed.

(** X7: a chain [A & B1 & ... & Bn] of two or more predicates, which
    Python groups to the left, evaluates as the single conjunction of
    [A, B1, ..., Bn], for all predicates. *)
Theorem and_chain (A B : Specification) (specs : list Specification)
    (x : positive) (h : gmap positive object) :
  is_satisfied (fold_left and_ (B :: specs) A) x h
  = is_satisfied (AndSpecification (A :: B :: specs)) x h.
Proof.
  revert A B. induction specs as [|B' specs IH]; intros A B.
  - reflexivity.
  - change (fold_left and_ (B :: B' :: specs) A)
      with (fold_left and_ (B' :: specs) (and_ A B)).
    rewrite IH. unfold and_. apply is_satisfied_and_nested.
Qed.

(** X8: for a predicate that returns a boolean and writes nothing,
    [A & A] evaluates as [A]. *)
Theorem and_idempotent (A : Specification) (x : positive)
    (h : gmap positive object) :
  decides_at A h x →
  is_satisfied (and_ A A) x h = is_satisfied A x h.
Proof.
  intros [b Hb]. unfold and_.
  rewrite is_satisfied_and_cons, Hb.
  destruct b; [by rewrite is_satisfied_and_single, Hb | reflexivity].
Qed.

(** X9: when every child returns a boolean and writes nothing, the order
    of the children of a conjunction does not matter. *)
Theorem and_permutation (specs specs' : list Specification) (x : positive)
    (h : gmap positive object) :
  Forall (λ spec, decides_at spec h x) specs →
  specs ≡ₚ specs' →
  is_satisfied (AndSpecification specs) x h
  = is_satisfied (AndSpecification specs') x h.
Proof.
  intros Hdec Hperm.
  rewrite !is_satisfied_and_forallb; [| by rewrite <- Hperm | done].
  by rewrite (forallb_Permutation _ _ _ Hperm).
Qed.

(** ** The classes of the module read one object and write none *)

(** The result of a predicate built from the classes of the module is
    the same in two heaps that hold the same object for the item. *)
Lemma builtin_local spec (x : positive) :
  builtin spec = true →
  ∀ h1 h2 : gmap positive object,
    h1 !! x = h2 !! x →
    (is_satisfied spec x h1).1 = (is_satisfied spec x h2).1.
Proof.
  induction spec as [| color | size | specs IH | method]
    using Specification_nested_ind; intros Hb h1 h2 Hx.
  - reflexivity.
  - simpl. unfold getattr. rewrite Hx.
    destruct (h2 !! x) as [[attrs|]|]; try reflexivity.
    destruct (attrs !! "color"); reflexivity.
  - simpl. unfold getattr. rewrite Hx.
    destruct (h2 !! x) as [[attrs|]|]; try reflexivity.
    destruct (attrs !! "size"); reflexivity.
  - simpl in Hb.
    induction IH as [|spec specs Hspec _ IHspecs]; [reflexivity|].
    simpl in Hb. apply andb_prop in Hb as [Hb1 Hb2].
    rewrite !is_satisfied_and_cons.
    pose proof (builtin_pure spec x Hb1 h1) as Hp1.
    pose proof (builtin_pure spec x Hb1 h2) as Hp2.
    specialize (Hspec Hb1 h1 h2 Hx). unfold pure_at in Hp1, Hp2.
    destruct (is_satisfied spec x h1) as [r1 h1'].
    destruct (is_satisfied spec x h2) as [r2 h2'].
    simpl in Hspec, Hp1, Hp2. subst r2 h1' h2'.
    destruct r1 as [[]|e]; [exact (IHspecs Hb2) | reflexivity | reflexivity].
  - discriminate.
Qed.

(** X15: a predicate built from the classes of the module (base, colour,
    size, conjunction, to any depth) never writes the heap, and what it
    returns or raises for an item depends on the object of that item and
    on nothing else in the heap. *)
Theorem builtin_reads_item_only (spec : Specification) (x : positive) :
  builtin spec = true →
  (∀ h : gmap positive object, (is_satisfied spec x h).2 = h) ∧
  (∀ h1 h2 : gmap positive object,
     h1 !! x = h2 !! x →
     (is_satisfied spec x h1).1 = (is_satisfied spec x h2).1).
Proof.
  intros Hb. split.
  - intros h. exact (builtin_pure spec x Hb h).
  - exact (builtin_local spec x Hb).
Qed.

(** X16: building a further product does not change what a predicate of
    the module returns or raises for an object that was already there. *)
Theorem Product_init_preserves_results (spec : Specification)
    (x : positive) (o : object) (name color size : value)
    (h : gmap positive object) :
  builtin spec = true →
  h !! x = Some o →
  let h' := (Product_init name color size h).2 in
  is_satisfied spec x h' = ((is_satisfied spec x h).1, h').
Proof.
  intros Hb Hx h'.
  pose proof (builtin_pure spec x Hb h') as Hpure. unfold pure_at in Hpure.
  assert (Hsame : h' !! x = h !! x).
  { rewrite Hx. apply alloc_keeps, Hx. }
  rewrite <- (builtin_local spec x Hb h' h Hsame).
  destruct (is_satisfied spec x h') as [r h'']. simpl in *. by subst.
Qed.

(** ** Traversals *)

Lemma next_created fuel items elems spec (h : gmap positive object) :
  h !! items = Some (PyList elems) →
  next fuel (ProductFilter_filter items spec) h
  = next fuel (GenIterating items 0 spec) h.
Proof. intros Hitems. destruct fuel; simpl; rewrite ?Hitems; reflexivity. Qed.

Lemma drop_cons_inv {A} (l : list A) i y rest :
  drop i l = y :: rest → l !! i = Some y ∧ drop (S i) l = rest.
Proof.
  intros Hdrop. split.
  - rewrite <- (Nat.add_0_r i), <- lookup_drop, Hdrop. reflexivity.
  - replace (S i) with (i + 1) by lia.
    rewrite <- drop_drop, Hdrop. reflexivity.
Qed.

(** Over a stretch of the list on which the check returns a boolean and
    writes nothing, the traversal yields the items on which it is true and
    goes on behind the stretch, using one unit of fuel per item. *)
Lemma collect_prefix items elems spec (h : gmap positive object) fuel :
  h !! items = Some (PyList elems) →
  ∀ (pre rest : list positive) (i : nat),
    drop i elems = (pre ++ rest)%list →
    Forall (decides_at spec h) pre →
    collect (length pre + fuel) (GenIterating items i spec) h
    = match collect fuel (GenIterating items (i + length pre) spec) h with
      | Some (ys, r, h') =>
          Some ((List.filter (holds spec h) pre ++ ys)%list, r, h')
      | None => None
      end.
Proof.
  intros Hitems. induction pre as [|y pre IH]; intros rest i Hdrop Hdec.
  - simpl. rewrite Nat.add_0_r.
    destruct (collect fuel _ h) as [[[ys r] h']|]; reflexivity.
  - apply drop_cons_inv in Hdrop as [Hi Hdrop].
    apply Forall_cons in Hdec as [[b Hb] Hdec].
    cbn [length Nat.add collect advance]. unfold iterate.
    rewrite Hitems, Hi, Hb.
    pose proof (IH rest (S i) Hdrop Hdec) as Hrest.
    replace (S i + length pre) with (i + S (length pre)) in Hrest by lia.
    assert (Hy : holds spec h y = b) by (unfold holds; rewrite Hb; by destruct b).
    cbn [List.filter]. rewrite Hy.
    destruct b; cbv iota; rewrite Hrest;
      destruct (collect fuel _ h) as [[[ys r] h']|]; reflexivity.
Qed.

(** Over a stretch of the list that the check rejects without writing,
    [next] goes on behind the stretch. *)
Lemma next_prefix items elems spec (h : gmap positive object) fuel :
  h !! items = Some (PyList elems) →
  ∀ (pre rest : list positive) (i : nat),
    drop i elems = (pre ++ rest)%list →
    Forall (λ y, is_satisfied spec y h = (Return false, h)) pre →
    next (length pre + fuel) (GenIterating items i spec) h
    = next fuel (GenIterating items (i + length pre) spec) h.
Proof.
  intros Hitems. induction pre as [|y pre IH]; intros rest i Hdrop Hrej.
  - simpl. rewrite Nat.add_0_r. reflexivity.
  - apply drop_cons_inv in Hdrop as [Hi Hdrop].
    apply Forall_cons in Hrej as [Hy Hrej].
    cbn [length Nat.add next advance]. unfold iterate.
    rewrite Hitems, Hi, Hy. cbv iota.
    rewrite (IH rest (S i) Hdrop Hrej).
    replace (S i + length pre) with (i + S (length pre)) by lia.
    reflexivity.
Qed.



(** X11: the empty conjunction selects everything: filtering by it yields
    the whole list, whatever the objects in it are. *)
Theorem filter_empty_conjunction (items : positive) (C : list positive)
    (h : gmap positive object) (fuel : nat) :
  h !! items = Some (PyList C) →
  length C < fuel →
  collect fuel (ProductFilter_filter items (AndSpecification [])) h
  = Some (C, Return (), h).
Proof.
  intros Hitems Hfuel.
  rewrite (collect_filter_scan _ _ _ _ _ Hitems); [| | done].
  - do 2 f_equal. clear Hitems Hfuel.
    induction C as [|x C IH]; [reflexivity|].
    simpl. by rewrite IH.
  - apply Forall_forall. intros x _. reflexivity.
Qed.

(** X12: over an empty list the predicate is never called: the traversal
    ends normally with nothing yielded and the heap untouched, for every
    predicate, also one that would raise or write. *)
Theorem filter_empty_list (items : positive) (spec : Specification)
    (h : gmap positive object) (fuel : nat) :
  h !! items = Some (PyList []) →
  collect (S fuel) (ProductFilter_filter items spec) h
  = Some ([], Return (), h) ∧
  next (S fuel) (ProductFilter_filter items spec) h
  = Some (Exhausted, GenClosed, h).
Proof.
  intros Hitems. simpl. unfold iterate. rewrite !Hitems. by split.
Qed.

(** X13: [next] is lazy.  When the predicate rejects the items before [x]
    without writing and accepts [x], the first [next] yields [x] and
    leaves the generator at the position behind [x]: the items after [x]
    have not been looked at, whatever they are. *)
Theorem next_first_match (items : positive) (pre post : list positive)
    (x : positive) (spec : Specification) (h h' : gmap positive object)
    (fuel : nat) :
  h !! items = Some (PyList (pre ++ x :: post)) →
  Forall (λ y, is_satisfied spec y h = (Return false, h)) pre →
  is_satisfied spec x h = (Return true, h') →
  length pre < fuel →
  next fuel (ProductFilter_filter items spec) h
  = Some (Yielded x, GenIterating items (S (length pre)) spec, h').
Proof.
  intros Hitems Hpre Hx Hfuel.
  replace fuel with (length pre + S (fuel - S (length pre))) by lia.
  rewrite (next_created _ _ _ _ _ Hitems).
  rewrite (next_prefix _ _ _ _ _ Hitems pre (x :: post) 0); [|done..].
  simpl. unfold iterate.
  rewrite Hitems, (list_lookup_middle pre post x) by done.
  rewrite Hx. reflexivity.
Qed.

(** X18: an exception of the predicate ends the traversal and reaches the
    caller.  When the predicate returns booleans without writing on the
    items before [x] and raises on [x], the traversal yields the matches
    among the earlier items and then raises that exception, with
    [RuntimeError] in the place of a [StopIteration]; the items after [x]
    are not looked at. *)
Theorem filter_propagates_exception (items : positive)
    (pre post : list positive) (x : positive) (spec : Specification)
    (e : exn) (h h' : gmap positive object) (fuel : nat) :
  h !! items = Some (PyList (pre ++ x :: post)) →
  Forall (decides_at spec h) pre →
  is_satisfied spec x h = (Raise e, h') →
  length pre < fuel →
  collect fuel (ProductFilter_filter items spec) h
  = Some (List.filter (holds spec h) pre, Raise (leaving_generator e), h').
Proof.
  intros Hitems Hpre Hx Hfuel.
  replace fuel with (length pre + S (fuel - S (length pre))) by lia.
  rewrite (collect_created _ _ _ _ _ Hitems).
  rewrite (collect_prefix _ _ _ _ _ Hitems pre (x :: post) 0); [|done..].
  simpl. unfold iterate.
  rewrite Hitems, (list_lookup_middle pre post x) by done.
  rewrite Hx, app_nil_r. reflexivity.
Qed.

(** X17: filtering a list of products by an attribute predicate or by a
    conjunction of such, to any depth, never raises: the traversal ends
    normally with the matching products and leaves the heap as it was. *)
Theorem filter_products_total (items : positive) (C : list positive)
    (P : Specification) (h : gmap positive object) (fuel : nat) :
  attribute_tree P = true →
  h !! items = Some (PyList C) →
  Forall (is_product h) C →
  length C < fuel →
  collect fuel (ProductFilter_filter items P) h
  = Some (List.filter (holds P h) C, Return (), h).
Proof.
  intros Htree Hitems Hprod Hfuel.
  assert (Hdec : Forall (decides_at P h) C).
  { eapply Forall_impl; [exact Hprod|]. intros x. by apply product_decides. }
  rewrite (collect_filter_scan _ _ _ _ _ Hitems); [| | done].
  - by rewrite scan_decides.
  - eapply Forall_impl; [exact Hdec | apply decides_pure].
Qed.

Lemma advance_closes g (h : gmap positive object) sig g' h' :
  advance g h = (sig, g', h') →
  (∀ y, sig ≠ Yielded y) → sig ≠ Rejected → g' = GenClosed.
Proof.
  intros Hadv Hyield Hrej.
  assert (Hiter : ∀ items index spec,
            iterate items index spec h = (sig, g', h') → g' = GenClosed).
  { intros items index spec. unfold iterate.
    destruct (h !! items) as [[|elems]|]; try congruence.
    destruct (elems !! index) as [item|]; try congruence.
    destruct (is_satisfied spec item h) as [[[]|e] h'']; intros [= <- <- <-];
      [by destruct (Hyield item) | done | done]. }
  destruct g as [items spec | items index spec |]; simpl in Hadv.
  - destruct (h !! items) as [[|elems]|]; try congruence. by eapply Hiter.
  - by eapply Hiter.
  - congruence.
Qed.

(** X14: a generator can be consumed once.  When [next] reports the end
    of the list or an exception, the generator is closed, and from then on
    every [next] reports the end and every traversal yields nothing,
    without touching the heap. *)
Theorem generator_closed_after_end (fuel : nat) (g g' : generator)
    (sig : signal) (h h' : gmap positive object) :
  next fuel g h = Some (sig, g', h') →
  (∀ y, sig ≠ Yielded y) →
  g' = GenClosed ∧
  ∀ (k : nat) (h2 : gmap positive object),
    next (S k) g' h2 = Some (Exhausted, GenClosed, h2) ∧
    collect (S k) g' h2 = Some ([], Return (), h2).
Proof.
  intros Hnext Hyield.
  assert (Hclosed : g' = GenClosed).
  { revert g h Hnext. induction fuel as [|fuel IH]; intros g h; [done|].
    simpl. destruct (advance g h) as [[s g1] h1] eqn:Hadv.
    destruct s; try (intros [= <- <- <-]).
    - by destruct (Hyield item).
    - apply IH.
    - by eapply advance_closes.
    - by eapply advance_closes. }
  subst g'. split; [reflexivity|]. intros k h2. by split.
Qed.

(** X19: an exception of a child ends the evaluation of a conjunction and
    reaches the caller.  When the children before [P] all held and [P]
    raises, the conjunction raises the same exception, with [RuntimeError]
    in the place of a [StopIteration], and with the heap [P] left,
    whatever the children after [P] are. *)
Theorem and_propagates_exception (pre post : list Specification)
    (P : Specification) (e : exn) (x : positive)
    (h h1 h2 : gmap positive object) :
  is_satisfied (AndSpecification pre) x h = (Return true, h1) →
  is_satisfied P x h1 = (Raise e, h2) →
  is_satisfied (AndSpecification (pre ++ P :: post)) x h
  = (Raise (leaving_generator e), h2).
Proof.
  intros Hpre HP.
  rewrite is_satisfied_and_app, Hpre, is_satisfied_and_cons, HP.
  reflexivity.
Qed.

(** * The further properties at concrete inputs *)

(** A pear built after the demonstration leaves the tree as it was. *)
Lemma Product_init_frame_witness :
  let h := demo_heap main_setup in
  let p := Product_init (VStr "Pear") (VColor GREEN) (VSize SMALL) h in
  delete p.1 p.2 = h ∧ p.2 !! tree main_setup = h !! tree main_setup.
Proof.
  intros h p.
  destruct (Product_init_frame (VStr "Pear") (VColor GREEN) (VSize SMALL) h)
    as [Hdel Hkeep].
  split; [exact Hdel|].
  assert (Htree : h !! tree main_setup
                  = Some (PyInstance {[ "name" := VStr "Tree";
                                        "color" := VColor GREEN;
                                        "size" := VSize LARGE ]}))
    by (vm_compute; reflexivity).
  rewrite Htree. exact (Hkeep _ _ Htree).
Defined.

(** The room is large and blue but not green. *)
Lemma and_all_children_witness :
  let h := demo_heap main_setup in
  let x := room main_setup in
  let specs := [large_spec; ColorSpecification (VColor BLUE); green_spec] in
  Forall (λ spec, decides_at spec h x) specs ∧
  is_satisfied (AndSpecification specs) x h = (Return false, h).
Proof.
  intros h x specs.
  assert (Hdec : Forall (λ spec, decides_at spec h x) specs).
  { repeat (constructor; [eexists; vm_compute; reflexivity|]). constructor. }
  split; [exact Hdec|].
  etrans; [exact (proj1 (and_all_children specs x h Hdec))|].
  vm_compute. reflexivity.
Defined.

Lemma and_idempotent_witness :
  let h := demo_heap main_setup in
  let x := room main_setup in
  decides_at large_spec h x ∧
  is_satisfied (and_ large_spec large_spec) x h = is_satisfied large_spec x h.
Proof.
  intros h x.
  assert (Hdec : decides_at large_spec h x)
    by (eexists; vm_compute; reflexivity).
  exact (conj Hdec (and_idempotent large_spec x h Hdec)).
Defined.

Lemma and_permutation_witness :
  let h := demo_heap main_setup in
  let x := room main_setup in
  let blue := ColorSpecification (VColor BLUE) in
  Forall (λ spec, decides_at spec h x) [large_spec; blue; green_spec] ∧
  is_satisfied (AndSpecification [large_spec; blue; green_spec]) x h
  = is_satisfied (AndSpecification [blue; green_spec; large_spec]) x h.
Proof.
  intros h x blue.
  assert (Hdec : Forall (λ spec, decides_at spec h x)
                   [large_spec; blue; green_spec]).
  { repeat (constructor; [eexists; vm_compute; reflexivity|]). constructor. }
  split; [exact Hdec|].
  exact (and_permutation [large_spec; blue; green_spec]
           [blue; green_spec; large_spec] x h Hdec
           (Permutation_cons_append [blue; green_spec] large_spec)).
Defined.


(** The empty conjunction on the list with the crate. *)
Lemma filter_empty_conjunction_witness :
  let h := crate_heap in
  let C := [tree main_setup; crate; room main_setup] in
  h !! crates = Some (PyList C) ∧
  collect 4 (ProductFilter_filter crates (AndSpecification [])) h
  = Some (C, Return (), h).
Proof.
  intros h C.
  assert (Hitems : h !! crates = Some (PyList C))
    by (vm_compute; reflexivity).
  exact (conj Hitems
           (filter_empty_conjunction crates C h 4 Hitems ltac:(simpl; lia))).
Defined.

(** The base class on the empty list. *)
Lemma filter_empty_list_witness :
  let h := pantry_heap in
  h !! pantry = Some (PyList []) ∧
  collect 1 (ProductFilter_filter pantry Specification_base) h
  = Some ([], Return (), h).
Proof.
  intros h.
  assert (Hitems : h !! pantry = Some (PyList []))
    by (vm_compute; reflexivity).
  exact (conj Hitems
           (proj1 (filter_empty_list pantry Specification_base h 0 Hitems))).
Defined.

(** Large on the products: the apple is passed over, the tree is yielded,
    the generator waits at the room. *)
Lemma next_first_match_witness :
  let h := demo_heap main_setup in
  h !! products main_setup
  = Some (PyList ([apple main_setup] ++ tree main_setup :: [room main_setup])) ∧
  next 2 (ProductFilter_filter (products main_setup) large_spec) h
  = Some (Yielded (tree main_setup),
          GenIterating (products main_setup) 2 large_spec, h).
Proof.
  intros h.
  assert (Hitems : h !! products main_setup
                   = Some (PyList ([apple main_setup] ++ tree main_setup
                                   :: [room main_setup])))
    by (vm_compute; reflexivity).
  split; [exact Hitems|].
  apply (next_first_match (products main_setup) [apple main_setup]
           [room main_setup] (tree main_setup) large_spec h h 2 Hitems).
  - constructor; [vm_compute; reflexivity | constructor].
  - vm_compute. reflexivity.
  - simpl. lia.
Defined.

(** After the exception at the crate the generator is closed: the room
    behind the crate is never yielded. *)
Lemma generator_closed_after_end_witness :
  let h := crate_heap in
  next 3 (GenIterating crates 1 large_spec) h
  = Some (Raised AttributeError, GenClosed, h) ∧
  collect 5 GenClosed h = Some ([], Return (), h).
Proof.
  intros h.
  assert (Hnext : next 3 (GenIterating crates 1 large_spec) h
                  = Some (Raised AttributeError, GenClosed, h))
    by (vm_compute; reflexivity).
  split; [exact Hnext|].
  destruct (generator_closed_after_end 3 (GenIterating crates 1 large_spec)
              GenClosed (Raised AttributeError) h h Hnext
              ltac:(intros y; discriminate)) as [_ Hlater].
  exact (proj2 (Hlater 4 h)).
Defined.

(** Large and blue on the tree, in the heap of the demonstration and in
    the heap with the shelf. *)
Lemma builtin_reads_item_only_witness :
  let x := tree main_setup in
  builtin large_blue_spec = true ∧
  (is_satisfied large_blue_spec x shelf_heap).2 = shelf_heap ∧
  (is_satisfied large_blue_spec x (demo_heap main_setup)).1
  = (is_satisfied large_blue_spec x shelf_heap).1.
Proof.
  intros x.
  destruct (builtin_reads_item_only large_blue_spec x eq_refl)
    as [Hpure Hlocal].
  refine (conj eq_refl (conj (Hpure shelf_heap) (Hlocal _ _ _))).
  vm_compute. reflexivity.
Defined.

(** The tree is as green after a pear has been built. *)
Lemma Product_init_preserves_results_witness :
  let h := demo_heap main_setup in
  let h' := (Product_init (VStr "Pear") (VColor GREEN) (VSize SMALL) h).2 in
  is_satisfied green_spec (tree main_setup) h' = (Return true, h').
Proof.
  intros h h'.
  assert (Htree : h !! tree main_setup
                  = Some (PyInstance {[ "name" := VStr "Tree";
                                        "color" := VColor GREEN;
                                        "size" := VSize LARGE ]}))
    by (vm_compute; reflexivity).
  etrans;
    [exact (Product_init_preserves_results green_spec (tree main_setup) _
              (VStr "Pear") (VColor GREEN) (VSize SMALL) h eq_refl Htree)|].
  f_equal.
Defined.

(** Large and blue on the products of the demonstration. *)
Lemma filter_products_total_witness :
  let h := demo_heap main_setup in
  let C := [apple main_setup; tree main_setup; room main_setup] in
  attribute_tree large_blue_spec = true ∧
  h !! products main_setup = Some (PyList C) ∧
  Forall (is_product h) C ∧
  collect 4 (ProductFilter_filter (products main_setup) large_blue_spec) h
  = Some ([room main_setup], Return (), h).
Proof.
  intros h C.
  assert (Hitems : h !! products main_setup = Some (PyList C))
    by (vm_compute; reflexivity).
  assert (Hprod : Forall (is_product h) C).
  { repeat (constructor;
            [do 3 eexists; split;
             [vm_compute; reflexivity | split; reflexivity]|]).
    constructor. }
  refine (conj eq_refl (conj Hitems (conj Hprod _))).
  etrans;
    [exact (filter_products_total (products main_setup) C large_blue_spec h 4
              eq_refl Hitems Hprod ltac:(simpl; lia))
    | vm_compute; reflexivity].
Defined.

(** Large on the list with the crate: the tree, then the exception. *)
Lemma filter_propagates_exception_witness :
  let h := crate_heap in
  h !! crates
  = Some (PyList ([tree main_setup] ++ crate :: [room main_setup])) ∧
  Forall (decides_at large_spec h) [tree main_setup] ∧
  is_satisfied large_spec crate h = (Raise AttributeError, h) ∧
  collect 2 (ProductFilter_filter crates large_spec) h
  = Some ([tree main_setup], Raise AttributeError, h).
Proof.
  intros h.
  assert (Hitems : h !! crates
                   = Some (PyList ([tree main_setup] ++ crate
                                   :: [room main_setup])))
    by (vm_compute; reflexivity).
  assert (Hpre : Forall (decides_at large_spec h) [tree main_setup]).
  { constructor; [eexists; vm_compute; reflexivity | constructor]. }
  assert (Hx : is_satisfied large_spec crate h = (Raise AttributeError, h))
    by (vm_compute; reflexivity).
  refine (conj Hitems (conj Hpre (conj Hx _))).
  etrans;
    [exact (filter_propagates_exception crates [tree main_setup]
              [room main_setup] crate large_spec AttributeError h h 2
              Hitems Hpre Hx ltac:(simpl; lia))
    | vm_compute; reflexivity].
Defined.

(** Large, then the base class, then green, on the tree: large holds, the
    base class raises, green is not asked. *)
Lemma and_propagates_exception_witness :
  let h := demo_heap main_setup in
  let x := tree main_setup in
  is_satisfied (AndSpecification [large_spec]) x h = (Return true, h) ∧
  is_satisfied
    (AndSpecification ([large_spec] ++ Specification_base :: [green_spec])) x h
  = (Raise NotImplementedError, h).
Proof.
  intros h x.
  assert (Hpre : is_satisfied (AndSpecification [large_spec]) x h
                 = (Return true, h)) by (vm_compute; reflexivity).
  exact (conj Hpre
           (and_propagates_exception [large_spec] [green_spec]
              Specification_base NotImplementedError x h h h Hpre eq_refl)).
Defined.

(** Large and blue on the room: both operands return. *)
Lemma and_conjunction_correct_witness :
  let h := demo_heap main_setup in
  let x := room main_setup in
  let blue := ColorSpecification (VColor BLUE) in
  (py_and (is_satisfied large_spec x) (is_satisfied blue x) h).1
  ≠ Raise StopIteration ∧
  is_satisfied (and_ large_spec blue) x h
  = py_and (is_satisfied large_spec x) (is_satisfied blue x) h.
Proof.
  intros h x blue.
  assert (Hstop : (py_and (is_satisfied large_spec x) (is_satisfied blue x) h).1
                  ≠ Raise StopIteration) by (vm_compute; discriminate).
  exact (conj Hstop (proj2 (and_conjunction_correct large_spec blue x h) Hstop)).
Defined.

(** Green with the empty conjunction, on the tree. *)
Lemma and_neutral_witness :
  let h := demo_heap main_setup in
  let x := tree main_setup in
  (is_satisfied green_spec x h).1 ≠ Raise StopIteration ∧
  is_satisfied (and_ green_spec (AndSpecification [])) x h
  = is_satisfied green_spec x h ∧
  is_satisfied (and_ (AndSpecification []) green_spec) x h
  = is_satisfied green_spec x h.
Proof.
  intros h x.
  assert (Hstop : (is_satisfied green_spec x h).1 ≠ Raise StopIteration)
    by (vm_compute; discriminate).
  destruct (and_neutral green_spec x h) as (Hright & Hleft & Hsame).
  split; [exact Hstop|].
  split; [exact (eq_trans Hright (Hsame Hstop))
         | exact (eq_trans Hleft (Hsame Hstop))].
Defined.

(** A [StopIteration] of an operand leaves the conjunction as a
    [RuntimeError], where [and] lets it through. *)
Example stop_in_conjunction :
  let h := demo_heap main_setup in
  let x := tree main_setup in
  let stopping := UserSpecification stop in
  is_satisfied stopping x h = (Raise StopIteration, h) ∧
  is_satisfied (AndSpecification [stopping]) x h = (Raise RuntimeError, h) ∧
  is_satisfied (and_ large_spec stopping) x h = (Raise RuntimeError, h) ∧
  py_and (is_satisfied large_spec x) (is_satisfied stopping x) h
  = (Raise StopIteration, h).
Proof. vm_compute. repeat split. Qed.

(** A [StopIteration] of the predicate leaves the traversal as a
    [RuntimeError]. *)
Example stop_in_filter :
  let h := demo_heap main_setup in
  collect 4 (ProductFilter_filter (products main_setup) (UserSpecification stop)) h
  = Some ([], Raise RuntimeError, h).
Proof. vm_compute. reflexivity. Qed.
